(** * Example_Bagging: the DESlib bagging notebook as a script over its libraries

    The notebook [examples/Notebooks_examples/Example_Bagging.ipynb] is a
    straight-line Python script.  Every operation it performs is a call into
    scikit-learn or DESlib, or a [print].  The libraries are not part of the
    repository, so they are a parameter of the development: a [Library] maps
    each call, in the current state of the outside world (random generators,
    the objects the libraries own), to a returned value or a raised
    exception, and to the next state of that world.  The script itself is
    embedded statement by statement in a state-and-exception monad that also
    records what happened, in order.

    Left out: the [import] statements of the first cell, the cell that holds
    only a comment, and the value the notebook displays under the pool cell
    (the fitted pool's [repr]), which the script does not use. *)

From Stdlib Require Import List String ZArith QArith Bool Lia.
Import ListNotations.
Open Scope string_scope.
Open Scope list_scope.

(** ** Values the script writes down *)

(** Keyword arguments are kept as the script spells them: a name and a
    literal.  [0.33] and [0.5] are the decimal literals of the source. *)
Inductive Literal : Type :=
| LInt (n : Z)
| LFloat (q : Q).

Definition kwargs : Type := list (string * Literal).

(** The seven dynamic-selection classes imported from [deslib]. *)
Inductive Technique : Type :=
| OLA | APriori | MCB | DESP | KNORAU | KNORAE | METADES.

(** ** Objects owned by the libraries *)

(** Arrays, estimators and scores are produced and interpreted by the
    libraries only; the script holds references to them. *)
Class Objects : Type := {
  World : Type;    (* hidden state: random generators, fitted parameters *)
  Exn : Type;      (* exceptions a call may raise *)
  Arr : Type;      (* numpy arrays: feature matrices and label vectors *)
  Scaler : Type;   (* StandardScaler objects *)
  Clf : Type;      (* scikit-learn classifiers *)
  DS : Type;       (* DESlib dynamic-selection estimators *)
  Score : Type     (* the float returned by [score] *)
}.

Section Model.
Context {O : Objects}.

(** The object returned by [load_breast_cancer()], read through its
    attributes [.data] and [.target]. *)
Record Bunch : Type := { data : Arr; target : Arr }.

(** Every library entry point the notebook uses, with the arguments the
    notebook passes. *)
Inductive Call : Type :=
| load_breast_cancer
| train_test_split (X y : Arr) (kw : kwargs)
| StandardScaler
| fit_transform (s : Scaler) (X : Arr)
| transform (s : Scaler) (X : Arr)
| Perceptron (kw : kwargs)
| CalibratedClassifierCV (base : Clf)
| BaggingClassifier (base : Clf) (kw : kwargs)
| clf_fit (c : Clf) (X y : Arr)
| construct (t : Technique) (pool : Clf)
| ds_fit (d : DS) (X y : Arr)
| ds_score (d : DS) (X y : Arr).

(** What each call returns when it does not raise.  [fit] returns the
    receiver, as in scikit-learn. *)
Definition ret (c : Call) : Type :=
  match c with
  | load_breast_cancer => Bunch
  | train_test_split _ _ _ => (Arr * Arr * Arr * Arr)%type
  | StandardScaler => Scaler
  | fit_transform _ _ => Arr
  | transform _ _ => Arr
  | Perceptron _ => Clf
  | CalibratedClassifierCV _ => Clf
  | BaggingClassifier _ _ => Clf
  | clf_fit _ _ _ => Clf
  | construct _ _ => DS
  | ds_fit _ _ _ => DS
  | ds_score _ _ _ => Score
  end.

Inductive Val : Type :=
| VBunch (b : Bunch)
| VSplit (r : Arr * Arr * Arr * Arr)
| VScaler (s : Scaler)
| VArr (a : Arr)
| VClf (c : Clf)
| VDS (d : DS)
| VScore (s : Score).

Definition to_val (c : Call) : ret c -> Val :=
  match c with
  | load_breast_cancer => VBunch
  | train_test_split _ _ _ => VSplit
  | StandardScaler => VScaler
  | fit_transform _ _ => VArr
  | transform _ _ => VArr
  | Perceptron _ => VClf
  | CalibratedClassifierCV _ => VClf
  | BaggingClassifier _ _ => VClf
  | clf_fit _ _ _ => VClf
  | construct _ _ => VDS
  | ds_fit _ _ _ => VDS
  | ds_score _ _ _ => VScore
  end.

(** A library: the behaviour of every call in a given world. *)
Definition Library : Type :=
  forall c : Call, World -> (Exn + ret c) * World.

(** ** Execution record *)

Inductive Event : Type :=
| Returned (c : Call) (v : Val)
| Raised (c : Call) (e : Exn)
| Printed (label : string) (v : Score).

Record State : Type := { world : World; trace : list Event }.

Definition log (ev : Event) (w : World) (st : State) : State :=
  {| world := w; trace := trace st ++ [ev] |}.

(** ** The script monad: state, and exceptions that nobody catches *)

Definition M (A : Type) : Type := State -> (Exn + A) * State.

Definition ret_ {A} (a : A) : M A := fun st => (inr a, st).

Definition bind {A B} (m : M A) (k : A -> M B) : M B :=
  fun st =>
    match m st with
    | (inl e, st') => (inl e, st')
    | (inr a, st') => k a st'
    end.

Variable lib : Library.

Definition call (c : Call) : M (ret c) :=
  fun st =>
    match lib c (world st) with
    | (inl e, w') => (inl e, log (Raised c e) w' st)
    | (inr v, w') => (inr v, log (Returned c (to_val c v)) w' st)
    end.

(** [print(label, value)]: writes the label, a space and the value.  The
    record keeps the two arguments. *)
Definition print (label : string) (v : Score) : M unit :=
  fun st => (inr tt, log (Printed label v) (world st) st).

Notation "x <- m ;; k" := (bind m (fun x => k))
  (at level 61, m at next level, right associativity).
Notation "' p <- m ;; k" := (bind m (fun x => let p := x in k))
  (at level 61, p pattern, m at next level, right associativity).
Notation "m ;;; k" := (bind m (fun _ => k))
  (at level 61, right associativity).

(** ** The notebook, cell by cell *)

(** Names bound by the data-preparation cell, with the values they hold
    when the cell ends ([X_train] and [y_train] are rebound by the second
    split, [X_test] by the scaling). *)
Record Data : Type := {
  X : Arr; y : Arr;
  scalar : Scaler;
  X_train : Arr; X_test : Arr; y_train : Arr; y_test : Arr;
  X_dsel : Arr; y_dsel : Arr
}.

Definition cell_data : M Data :=
  data_ <- call load_breast_cancer ;;
  let X := data data_ in
  let y := target data_ in
  '(X_train, X_test, y_train, y_test) <-
      call (train_test_split X y [("test_size", LFloat 0.33)]) ;;
  scalar <- call StandardScaler ;;
  X_train <- call (fit_transform scalar X_train) ;;
  X_test <- call (transform scalar X_test) ;;
  '(X_train, X_dsel, y_train, y_dsel) <-
      call (train_test_split X_train y_train [("test_size", LFloat 0.5)]) ;;
  ret_ {| X := X; y := y; scalar := scalar;
          X_train := X_train; X_test := X_test;
          y_train := y_train; y_test := y_test;
          X_dsel := X_dsel; y_dsel := y_dsel |}.

Record Pool : Type := { model : Clf; pool_classifiers : Clf }.

Definition cell_pool (d : Data) : M Pool :=
  perceptron <- call (Perceptron [("max_iter", LInt 10)]) ;;
  model <- call (CalibratedClassifierCV perceptron) ;;
  pool_classifiers <-
      call (BaggingClassifier model [("n_estimators", LInt 10)]) ;;
  call (clf_fit pool_classifiers (X_train d) (y_train d)) ;;;
  ret_ {| model := model; pool_classifiers := pool_classifiers |}.

Record Techniques : Type := {
  knorau : DS; kne : DS; desp : DS;
  ola : DS; mcb : DS; apriori : DS; meta : DS
}.

Definition cell_init (p : Pool) : M Techniques :=
  knorau <- call (construct KNORAU (pool_classifiers p)) ;;
  kne <- call (construct KNORAE (pool_classifiers p)) ;;
  desp <- call (construct DESP (pool_classifiers p)) ;;
  ola <- call (construct OLA (pool_classifiers p)) ;;
  mcb <- call (construct MCB (pool_classifiers p)) ;;
  apriori <- call (construct APriori (pool_classifiers p)) ;;
  meta <- call (construct METADES (pool_classifiers p)) ;;
  ret_ {| knorau := knorau; kne := kne; desp := desp;
          ola := ola; mcb := mcb; apriori := apriori; meta := meta |}.

Definition cell_fit (d : Data) (t : Techniques) : M unit :=
  call (ds_fit (knorau t) (X_dsel d) (y_dsel d)) ;;;
  call (ds_fit (kne t) (X_dsel d) (y_dsel d)) ;;;
  call (ds_fit (desp t) (X_dsel d) (y_dsel d)) ;;;
  call (ds_fit (ola t) (X_dsel d) (y_dsel d)) ;;;
  call (ds_fit (mcb t) (X_dsel d) (y_dsel d)) ;;;
  call (ds_fit (apriori t) (X_dsel d) (y_dsel d)) ;;;
  call (ds_fit (meta t) (X_dsel d) (y_dsel d)) ;;;
  ret_ tt.

Definition cell_score (d : Data) (t : Techniques) : M unit :=
  s <- call (ds_score (ola t) (X_test d) (y_test d)) ;;
  print "Classification accuracy OLA: " s ;;;
  s <- call (ds_score (apriori t) (X_test d) (y_test d)) ;;
  print "Classification accuracy A priori: " s ;;;
  s <- call (ds_score (knorau t) (X_test d) (y_test d)) ;;
  print "Classification accuracy KNORA-Union: " s ;;;
  s <- call (ds_score (kne t) (X_test d) (y_test d)) ;;
  print "Classification accuracy KNORA-Eliminate: " s ;;;
  s <- call (ds_score (desp t) (X_test d) (y_test d)) ;;
  print "Classification accuracy DESP: " s ;;;
  s <- call (ds_score (apriori t) (X_test d) (y_test d)) ;;
  print "Classification accuracy META-DES: " s.

(** The cells up to and including the fitting of the techniques. *)
Definition fitting : M (Data * Pool * Techniques) :=
  d <- cell_data ;;
  p <- cell_pool d ;;
  t <- cell_init p ;;
  cell_fit d t ;;;
  ret_ (d, p, t).

(** The whole notebook, run top to bottom. *)
Definition notebook : M unit :=
  '(d, p, t) <- fitting ;;
  cell_score d t.

Definition run {A} (m : M A) (w : World) : (Exn + A) * State :=
  m {| world := w; trace := [] |}.

End Model.

Arguments Library O : clear implicits.

(** ** A small library to run the notebook on

    [Sim] is one concrete [Library].  Arrays are lists of rows tagged with
    the index of the sample they come from; the world is a random-generator
    state, an allocation counter and the fitted parameter of every object.
    Splitting and bagging draw from the generator, so results depend on its
    initial state, as they do when no seed is fixed.  *)
Module Sim.

Definition Row : Type := (Z * Z)%type.          (* sample index, value *)

Record world_t : Type := {
  rng : Z;
  next : Z;
  params : list (Z * Z)                         (* object id, parameter *)
}.

Definition objects : Objects :=
  {| World := world_t; Exn := string; Arr := list Row;
     Scaler := Z; Clf := Z; DS := (Technique * Z)%type; Score := Z |}.

Definition total (a : list Row) : Z :=
  fold_right (fun r acc => snd r + acc)%Z 0%Z a.

Definition lookup (o : Z) (ps : list (Z * Z)) : option Z :=
  option_map snd (find (fun p => Z.eqb (fst p) o) ps).

Definition alloc (w : world_t) : Z * world_t :=
  (next w, {| rng := rng w; next := next w + 1; params := params w |}).

Definition store (o v : Z) (w : world_t) : world_t :=
  {| rng := rng w; next := next w; params := (o, v) :: params w |}.

Definition draw (w : world_t) : world_t :=
  {| rng := rng w + 1; next := next w; params := params w |}.

(** Membership of a sample in the held-out part, for a generator state. *)
Definition held_out (g : Z) (i : Z) : bool :=
  Z.odd (i / (1 + g mod 2) + g).

Definition part (keep : bool) (g : Z) (a : list Row) : list Row :=
  filter (fun r => Bool.eqb (held_out g (fst r)) keep) a.

Definition code (t : Technique) : Z :=
  match t with
  | OLA => 1 | APriori => 2 | MCB => 3 | DESP => 4
  | KNORAU => 5 | KNORAE => 6 | METADES => 7
  end%Z.

Definition dataset : @Bunch objects :=
  @Build_Bunch objects
    ([(0, 2); (1, 4); (2, 6); (3, 8);
      (4, 10); (5, 12); (6, 14); (7, 17)]%Z : list Row)
    ([(0, 0); (1, 1); (2, 0); (3, 1);
      (4, 1); (5, 0); (6, 1); (7, 0)]%Z : list Row).

Definition shift (m : Z) (a : list Row) : list Row :=
  map (fun r => (fst r, snd r - m)%Z) a.

Definition lib : Library objects :=
  fun c : @Call objects =>
    match c as c0 return @World objects -> (@Exn objects + @ret objects c0) * @World objects with
    | load_breast_cancer => fun w => (inr dataset, w)
    | train_test_split X y _ => fun w =>
        (inr (part false (rng w) X, part true (rng w) X,
              part false (rng w) y, part true (rng w) y), draw w)
    | StandardScaler => fun w => let (o, w') := alloc w in (inr o, w')
    | fit_transform s X => fun w =>
        let m := (total X / Z.max 1 (Z.of_nat (List.length (X : list Row))))%Z in
        (inr (shift m X), store s m w)
    | transform s X => fun w =>
        match lookup s (params w) with
        | Some m => (inr (shift m X), w)
        | None => (inl "NotFittedError", w)
        end
    | Perceptron _ => fun w => let (o, w') := alloc w in (inr o, w')
    | CalibratedClassifierCV _ => fun w => let (o, w') := alloc w in (inr o, w')
    | BaggingClassifier _ _ => fun w => let (o, w') := alloc w in (inr o, w')
    | clf_fit c X y => fun w =>
        (inr c, draw (store c (total X + total y + rng w)%Z w))
    | construct t pool => fun w => let (o, w') := alloc w in (inr (t, o), w')
    | ds_fit d X y => fun w =>
        (inr d, store (snd d) (total X + total y)%Z w)
    | ds_score d X y => fun w =>
        match lookup (snd d) (params w) with
        | Some p => (inr (100 * code (fst d) + (p + total X + total y) mod 100)%Z, w)
        | None => (inl "NotFittedError", w)
        end
    end.

Definition start (seed : Z) : world_t :=
  {| rng := seed; next := 0; params := [] |}.

(** The samples an array holds: the indices of its rows. *)
Definition samples (a : @Arr objects) : list Z := map fst (a : list Row).

(** Another test matrix: every value doubled. *)
Definition doubled (a : @Arr objects) : @Arr objects :=
  map (fun r => (fst r, 2 * snd r)%Z) (a : list Row).

End Sim.

(** ** Reading an execution record *)

Section Observations.
Context {O : Objects}.

(** The calls that were made, whether they returned or raised. *)
Definition invoked (tr : list Event) : list Call :=
  flat_map (fun ev => match ev with
                      | Returned c _ | Raised c _ => [c]
                      | Printed _ _ => []
                      end) tr.

(** What was printed: the two arguments of each [print]. *)
Definition stdout (tr : list Event) : list (string * Score) :=
  flat_map (fun ev => match ev with
                      | Printed l v => [(l, v)]
                      | _ => []
                      end) tr.

Definition raised (ev : Event) : Prop :=
  match ev with Raised _ _ => True | _ => False end.

(** A record in which no call raised. *)
Definition clean (tr : list Event) : Prop :=
  Forall (fun ev => ~ raised ev) tr.

(** The Python name of the function, class or method an event invokes. *)
Definition name_of (ev : Event) : string :=
  match ev with
  | Printed _ _ => "print"
  | Returned c _ | Raised c _ =>
      match c with
      | load_breast_cancer => "load_breast_cancer"
      | train_test_split _ _ _ => "train_test_split"
      | StandardScaler => "StandardScaler"
      | fit_transform _ _ => "fit_transform"
      | transform _ _ => "transform"
      | Perceptron _ => "Perceptron"
      | CalibratedClassifierCV _ => "CalibratedClassifierCV"
      | BaggingClassifier _ _ => "BaggingClassifier"
      | clf_fit _ _ _ => "fit"
      | construct OLA _ => "OLA"
      | construct APriori _ => "APriori"
      | construct MCB _ => "MCB"
      | construct DESP _ => "DESP"
      | construct KNORAU _ => "KNORAU"
      | construct KNORAE _ => "KNORAE"
      | construct METADES _ => "METADES"
      | ds_fit _ _ _ => "fit"
      | ds_score _ _ _ => "score"
      end
  end.

(** The keyword arguments a call was given. *)
Definition kwargs_of (c : Call) : kwargs :=
  match c with
  | train_test_split _ _ kw => kw
  | Perceptron kw => kw
  | BaggingClassifier _ kw => kw
  | _ => []
  end.

Definition has_key (k : string) (kw : kwargs) : bool :=
  existsb (fun p => String.eqb (fst p) k) kw.

(** Successful splits: inputs, keyword arguments and the four parts. *)
Definition splits (tr : list Event)
  : list (Arr * Arr * kwargs * (Arr * Arr * Arr * Arr)) :=
  flat_map (fun ev => match ev with
                      | Returned (train_test_split X y kw) (VSplit r) =>
                          [(X, y, kw, r)]
                      | _ => []
                      end) tr.

(** Objects built by the dynamic-selection constructors. *)
Definition constructions (tr : list Event) : list (Technique * Clf * DS) :=
  flat_map (fun ev => match ev with
                      | Returned (construct t pool) (VDS d) => [(t, pool, d)]
                      | _ => []
                      end) tr.

(** Receivers and arguments of the [fit] calls on classifiers, on
    dynamic-selection estimators, and of the [score] calls. *)
Definition clf_fits (tr : list Event) : list (Clf * Arr * Arr) :=
  flat_map (fun c => match c with
                     | clf_fit c X y => [(c, X, y)]
                     | _ => []
                     end) (invoked tr).

Definition ds_fits (tr : list Event) : list (DS * Arr * Arr) :=
  flat_map (fun c => match c with
                     | ds_fit d X y => [(d, X, y)]
                     | _ => []
                     end) (invoked tr).

Definition scores (tr : list Event) : list (DS * Arr * Arr) :=
  flat_map (fun c => match c with
                     | ds_score d X y => [(d, X, y)]
                     | _ => []
                     end) (invoked tr).

(** The object bound to the variable of technique [t], once constructed. *)
Definition constructed (tr : list Event) (t : Technique) : option DS :=
  match filter (fun r => match fst (fst r), t with
                         | OLA, OLA | APriori, APriori | MCB, MCB
                         | DESP, DESP | KNORAU, KNORAU | KNORAE, KNORAE
                         | METADES, METADES => true
                         | _, _ => false
                         end) (constructions tr) with
  | r :: _ => Some (snd r)
  | [] => None
  end.

(** The dataset a run loaded. *)
Definition loaded (tr : list Event) : list Bunch :=
  flat_map (fun ev => match ev with
                      | Returned load_breast_cancer (VBunch b) => [b]
                      | _ => []
                      end) tr.

(** Arrays produced by [scalar.transform]. *)
Definition transformed (tr : list Event) : list Arr :=
  flat_map (fun ev => match ev with
                      | Returned (transform _ _) (VArr a) => [a]
                      | _ => []
                      end) tr.

(** The test labels handed back by the first split. *)
Definition test_labels (tr : list Event) : list Arr :=
  map (fun r => snd (snd r)) (firstn 1 (splits tr)).

(** Calls that estimate parameters from data, with their arguments. *)
Definition fits (tr : list Event) : list Call :=
  filter (fun c => match c with
                   | fit_transform _ _ | clf_fit _ _ _ | ds_fit _ _ _ => true
                   | _ => false
                   end) (invoked tr).

(** The keyword arguments written in the script, in order of use. *)
Definition constants (tr : list Event) : list kwargs :=
  filter (fun kw => match kw with [] => false | _ => true end)
         (map kwargs_of (invoked tr)).

(** The keyword names written in the calls of a run. *)
Definition keywords (tr : list Event) : list string :=
  flat_map (fun c => map fst (kwargs_of c)) (invoked tr).

(** [l1] is an initial segment of [l2]. *)
Definition initial {A} (l1 l2 : list A) : Prop :=
  l1 = firstn (List.length l1) l2.

End Observations.

(** ** Steps of the pipeline *)

Inductive Step : Type :=
| LoadDataset | Split | Standardize | FitPool | DynamicSelection | Report.

Definition Step_eqb (a b : Step) : bool :=
  match a, b with
  | LoadDataset, LoadDataset | Split, Split | Standardize, Standardize
  | FitPool, FitPool | DynamicSelection, DynamicSelection
  | Report, Report => true
  | _, _ => false
  end.

Definition step_of {O : Objects} (ev : Event) : Step :=
  match ev with
  | Printed _ _ => Report
  | Returned c _ | Raised c _ =>
      match c with
      | load_breast_cancer => LoadDataset
      | train_test_split _ _ _ => Split
      | StandardScaler | fit_transform _ _ | transform _ _ => Standardize
      | Perceptron _ | CalibratedClassifierCV _ | BaggingClassifier _ _
      | clf_fit _ _ _ => FitPool
      | construct _ _ | ds_fit _ _ _ => DynamicSelection
      | ds_score _ _ _ => Report
      end
  end.

(** Consecutive events of one step are one occurrence of that step. *)
Fixpoint occurrences (l : list Step) : list Step :=
  match l with
  | [] => []
  | a :: l' =>
      match l' with
      | b :: _ => if Step_eqb a b then occurrences l' else a :: occurrences l'
      | [] => [a]
      end
  end.

Definition steps {O : Objects} (tr : list Event) : list Step :=
  occurrences (map step_of tr).

(** ** Runs of the notebook *)

Section Runs.
Context {O : Objects}.
Variable lib : Library O.

(** How a run from world [w] ends, and what it did. *)
Definition outcome (w : World) : Exn + unit :=
  fst (run (notebook lib) w).

Definition history (w : World) : list Event :=
  trace (snd (run (notebook lib) w)).

(** [transform] only reads the scaler: it leaves the world as it was. *)
Definition read_only_transform : Prop :=
  forall s X w, snd (lib (transform s X) w) = w.

Definition test_size_is (q : Q) (kw : kwargs) : bool :=
  match kw with
  | [(k, LFloat q')] => String.eqb k "test_size" && Qeq_bool q' q
  | _ => false
  end.

(** The same library, except that the test matrix handed back by the
    train/test split ([test_size=0.33]) is replaced by [f] of it. *)
Definition perturb_test (f : Arr -> Arr) : Library O :=
  fun c =>
    match c as c0 return World -> (Exn + ret c0) * World with
    | train_test_split X y kw => fun w =>
        if test_size_is 0.33 kw then
          match lib (train_test_split X y kw) w with
          | (inr (a, b, c, d), w') => (inr (a, f b, c, d), w')
          | (inl e, w') => (inl e, w')
          end
        else lib (train_test_split X y kw) w
    | c0 => lib c0
    end.

(** *** The contract of [train_test_split] *)

Variable Sample : Type.
Variable samples : Arr -> list Sample.     (* the samples an array holds *)

Definition disjoint (a b : Arr) : Prop :=
  forall s, In s (samples a) -> ~ In s (samples b).

(** No sample is in both parts of a split. *)
Definition split_is_disjoint : Prop :=
  forall X y kw w Xa Xb ya yb w',
    lib (train_test_split X y kw) w = (inr (Xa, Xb, ya, yb), w') ->
    disjoint Xa Xb /\ disjoint ya yb.

End Runs.

Arguments disjoint {O Sample} samples a b.
Arguments split_is_disjoint {O} lib {Sample} samples.

(** The order of statements and of pipeline steps the description gives. *)
Definition statements : list string :=
  [ "load_breast_cancer"; "train_test_split";
    "StandardScaler"; "fit_transform"; "transform";
    "train_test_split";
    "Perceptron"; "CalibratedClassifierCV"; "BaggingClassifier"; "fit";
    "KNORAU"; "KNORAE"; "DESP"; "OLA"; "MCB"; "APriori"; "METADES";
    "fit"; "fit"; "fit"; "fit"; "fit"; "fit"; "fit";
    "score"; "print"; "score"; "print"; "score"; "print";
    "score"; "print"; "score"; "print"; "score"; "print" ].

Definition pipeline : list Step :=
  [ LoadDataset; Split; Standardize; Split; FitPool; DynamicSelection; Report ].

Definition fixed_constants : list kwargs :=
  [ [("test_size", LFloat 0.33)]; [("test_size", LFloat 0.5)];
    [("max_iter", LInt 10)]; [("n_estimators", LInt 10)] ].

(** The variables the score cell calls [score] on, line by line. *)
Definition score_receivers : list Technique :=
  [ OLA; APriori; KNORAU; KNORAE; DESP; APriori ].

(** ** Use of objects and arrays across calls *)

Section Protocol.
Context {O : Objects}.

(** What must have returned before a call for its receiver or base object
    to be ready: a scaler is constructed before it is fitted and fitted
    before it transforms; each classifier wraps one built before; the pool
    is fitted before a technique is built on it; a technique is built
    before it is fitted and fitted before it scores. *)
Definition prepared (seen : list Event) (c : Call) : Prop :=
  match c with
  | load_breast_cancer | train_test_split _ _ _ | StandardScaler
  | Perceptron _ => True
  | fit_transform s _ => In (Returned StandardScaler (VScaler s)) seen
  | transform s _ =>
      exists X r, In (Returned (fit_transform s X) (VArr r)) seen
  | CalibratedClassifierCV base =>
      exists kw, In (Returned (Perceptron kw) (VClf base)) seen
  | BaggingClassifier base _ =>
      exists p, In (Returned (CalibratedClassifierCV p) (VClf base)) seen
  | clf_fit c _ _ =>
      exists base kw, In (Returned (BaggingClassifier base kw) (VClf c)) seen
  | construct _ pool =>
      exists X y r, In (Returned (clf_fit pool X y) (VClf r)) seen
  | ds_fit d _ _ =>
      exists t pool, In (Returned (construct t pool) (VDS d)) seen
  | ds_score d _ _ =>
      exists X y r, In (Returned (ds_fit d X y) (VDS r)) seen
  end.





(** [P] holds of every call of [tr], given the events before it. *)
Fixpoint respects (P : list Event -> Call -> Prop) (seen tr : list Event)
  : Prop :=
  match tr with
  | [] => True
  | ev :: tr' =>
      match ev with
      | Returned c _ | Raised c _ => P seen c
      | Printed _ _ => True
      end
      /\ respects P (seen ++ [ev]) tr'
  end.

(** The scores the library returned, and the fitting calls that returned. *)
Definition returned_scores (tr : list Event) : list Score :=
  flat_map (fun ev => match ev with
                      | Returned (ds_score _ _ _) (VScore s) => [s]
                      | _ => []
                      end) tr.


End Protocol.

(** [score] only reads: it leaves the world as it was. *)
Definition read_only_score {O : Objects} (lib : Library O) : Prop :=
  forall d X y w, snd (lib (ds_score d X y) w) = w.

(** The labels of the score cell, line by line. *)
Definition labels : list string :=
  [ "Classification accuracy OLA: ";
    "Classification accuracy A priori: ";
    "Classification accuracy KNORA-Union: ";
    "Classification accuracy KNORA-Eliminate: ";
    "Classification accuracy DESP: ";
    "Classification accuracy META-DES: " ].

(** * Properties *)

(** ** Stepping through the script *)

Section Stepping.
Context {O : Objects}.
Variable lib : Library O.

Lemma bind_assoc {A B C} (m : M A) (f : A -> M B) (g : B -> M C) st :
  bind (bind m f) g st = bind m (fun a => bind (f a) g) st.
Proof. unfold bind. destruct (m st) as [[e | a] st']; reflexivity. Qed.

Lemma bind_call {B} (c : Call) (k : ret c -> M B) st :
  bind (call lib c) k st =
  match lib c (world st) with
  | (inl e, w') => (inl e, log (Raised c e) w' st)
  | (inr v, w') => k v (log (Returned c (to_val c v)) w' st)
  end.
Proof.
  unfold bind, call.
  destruct (lib c (world st)) as [[e | v] w']; reflexivity.
Qed.

Lemma bind_print {B} l v (k : unit -> M B) st :
  bind (print l v) k st = k tt (log (Printed l v) (world st) st).
Proof. reflexivity. Qed.

Lemma bind_ret {A B} (a : A) (k : A -> M B) st :
  bind (ret_ a) k st = k a st.
Proof. reflexivity. Qed.

End Stepping.

Ltac open_script H :=
  unfold run, notebook, fitting, cell_data, cell_pool, cell_init, cell_fit,
    cell_score in H.

Ltac tidy H :=
  cbv beta iota zeta delta [log world trace app to_val] in H;
  cbn [X_train X_test y_train y_test X_dsel y_dsel scalar
       pool_classifiers model knorau kne desp ola mcb apriori meta] in H.

(** One statement of the script.  A call splits into the branch where the
    library raises and the branch where it returns. *)
Ltac step H :=
  repeat rewrite bind_assoc in H;
  first
    [ rewrite bind_call in H; tidy H;
      lazymatch type of H with
      | (let (_, _) := ?l ?c ?w in _) = _ =>
          let e := fresh "e" in
          let v := fresh "v" in
          let w' := fresh "w" in
          let E := fresh "E" in
          destruct (l c w) as [[e | v] w'] eqn:E;
          [ | cbn [ret] in v; try destruct v as [[[? ?] ?] ?] ];
          tidy H
      end
    | rewrite bind_print in H; tidy H
    | rewrite bind_ret in H; tidy H ].

(** Runs the script to its end in every branch; [H] then equates the
    computed outcome and state with the ones of the goal. *)
Ltac execute H :=
  open_script H; repeat step H;
  unfold print, ret_ in H; tidy H;
  injection H as <- <-; cbn [fst snd world trace].

(** ** The shape of every run *)

Section Shape.
Context {O : Objects}.
Variable lib : Library O.

Lemma clean_no_raise tr pre c e post :
  clean tr -> tr = pre ++ Raised c e :: post -> False.
Proof.
  intros Hc ->. apply Forall_app in Hc as [_ Hc].
  apply Forall_inv in Hc. apply Hc. exact I.
Qed.

Lemma raise_is_last pre' c' e' :
  clean pre' ->
  forall pre c e post,
    pre ++ Raised c e :: post = pre' ++ [Raised c' e'] ->
    post = [] /\ c = c' /\ e = e'.
Proof.
  induction pre' as [| a pre' IH]; intros Hc pre c e post Heq.
  - destruct pre as [| b pre]; cbn in Heq.
    + injection Heq as -> -> ->. auto.
    + injection Heq as _ Heq. destruct pre; discriminate.
  - apply Forall_cons_iff in Hc as [Ha Hc].
    destruct pre as [| b pre]; cbn in Heq.
    + injection Heq as <- _. exfalso. apply Ha. exact I.
    + injection Heq as _ Heq. eapply IH; eassumption.
Qed.

(** A run either completes without any raise, or stops right at the
    first call that raises, with that exception as its outcome. *)
Lemma run_shape (w : World) :
  match outcome lib w with
  | inr _ => clean (history lib w)
  | inl e =>
      exists pre c w0 w1,
        history lib w = pre ++ [Raised c e] /\ clean pre /\
        lib c w0 = (inl e, w1)
  end.
Proof.
  unfold outcome, history.
  destruct (run (notebook lib) w) as [r st] eqn:H.
  execute H.
  all: try (match goal with
            | |- exists pre c w0 w1, ?tr = @?rhs pre c /\ @?rest pre c w0 w1 =>
                exists (removelast tr)
            end;
            cbn [removelast]; do 3 eexists;
            split; [reflexivity | split; [ | eassumption ]]).
  all: unfold clean; repeat (apply Forall_cons; [exact (fun x => x) | ]);
    apply Forall_nil.
Qed.

(** The record of a run that completes: thirty-six events, each call
    fed with what earlier calls returned. *)
Lemma success_history (w : World) :
  outcome lib w = inr tt ->
  exists b Xtr0 Xte0 ytr0 yte sc Xs Xte Xtr Xds ytr yds pc m pool r0
         ku ke dp ol mc ap me r1 r2 r3 r4 r5 r6 r7 s1 s2 s3 s4 s5 s6 w1 w2,
    history lib w =
      [ Returned load_breast_cancer (VBunch b);
        Returned (train_test_split (data b) (target b)
                    [("test_size", LFloat 0.33)])
                 (VSplit (Xtr0, Xte0, ytr0, yte));
        Returned StandardScaler (VScaler sc);
        Returned (fit_transform sc Xtr0) (VArr Xs);
        Returned (transform sc Xte0) (VArr Xte);
        Returned (train_test_split Xs ytr0 [("test_size", LFloat 0.5)])
                 (VSplit (Xtr, Xds, ytr, yds));
        Returned (Perceptron [("max_iter", LInt 10)]) (VClf pc);
        Returned (CalibratedClassifierCV pc) (VClf m);
        Returned (BaggingClassifier m [("n_estimators", LInt 10)]) (VClf pool);
        Returned (clf_fit pool Xtr ytr) (VClf r0);
        Returned (construct KNORAU pool) (VDS ku);
        Returned (construct KNORAE pool) (VDS ke);
        Returned (construct DESP pool) (VDS dp);
        Returned (construct OLA pool) (VDS ol);
        Returned (construct MCB pool) (VDS mc);
        Returned (construct APriori pool) (VDS ap);
        Returned (construct METADES pool) (VDS me);
        Returned (ds_fit ku Xds yds) (VDS r1);
        Returned (ds_fit ke Xds yds) (VDS r2);
        Returned (ds_fit dp Xds yds) (VDS r3);
        Returned (ds_fit ol Xds yds) (VDS r4);
        Returned (ds_fit mc Xds yds) (VDS r5);
        Returned (ds_fit ap Xds yds) (VDS r6);
        Returned (ds_fit me Xds yds) (VDS r7);
        Returned (ds_score ol Xte yte) (VScore s1);
        Printed "Classification accuracy OLA: " s1;
        Returned (ds_score ap Xte yte) (VScore s2);
        Printed "Classification accuracy A priori: " s2;
        Returned (ds_score ku Xte yte) (VScore s3);
        Printed "Classification accuracy KNORA-Union: " s3;
        Returned (ds_score ke Xte yte) (VScore s4);
        Printed "Classification accuracy KNORA-Eliminate: " s4;
        Returned (ds_score dp Xte yte) (VScore s5);
        Printed "Classification accuracy DESP: " s5;
        Returned (ds_score ap Xte yte) (VScore s6);
        Printed "Classification accuracy META-DES: " s6 ]
    /\ lib (train_test_split Xs ytr0 [("test_size", LFloat 0.5)]) w1
       = (inr (Xtr, Xds, ytr, yds), w2)
    /\ (exists w3 w4, lib (ds_score ap Xte yte) w3 = (inr s6, w4)).
Proof.
  unfold outcome, history.
  destruct (run (notebook lib) w) as [r st] eqn:H.
  execute H; intros Hr; try discriminate Hr.
  repeat eexists; eassumption.
Qed.

End Shape.

(** Names the values of a completed run after the script's variables. *)
Ltac completed lib w Ho :=
  destruct (success_history lib w Ho)
    as (b & Xtr0 & Xte0 & ytr0 & yte & sc & Xs & Xte & Xtr & Xds & ytr & yds
        & pc & m & pool & r0 & ku & ke & dp & ol & mc & ap & me
        & r1 & r2 & r3 & r4 & r5 & r6 & r7 & s1 & s2 & s3 & s4 & s5 & s6
        & w1 & w2 & Hs & Hsplit & w3 & w4 & Hscore).

(** ** Order of execution and failures *)

Section Control.
Context {O : Objects}.
Variable lib : Library O.

(** C7.  The script has no handler, validation or retry of its own.  In
    every run, whatever call raises is the last thing that happens: no
    call and no print follows it, the run ends with that very exception,
    and the exception is one the library raised for that call.  Every
    run that ends with an exception ends this way. *)
Theorem C7_exceptions_propagate_unhandled (w : World) :
  (forall pre c e post,
      history lib w = pre ++ Raised c e :: post ->
      post = [] /\ outcome lib w = inl e /\
      exists w0 w1, lib c w0 = (inl e, w1))
  /\ (forall e,
        outcome lib w = inl e ->
        exists pre c, history lib w = pre ++ [Raised c e] /\ clean pre).
Proof.
  pose proof (run_shape lib w) as Hs.
  destruct (outcome lib w) as [e | u] eqn:Ho.
  - destruct Hs as (pre' & c' & w0 & w1 & Hh & Hc & Hl). split.
    + intros pre c e0 post Heq. rewrite Hh in Heq. symmetry in Heq.
      destruct (raise_is_last pre' c' e Hc pre c e0 post Heq)
        as (-> & -> & ->).
      repeat split; eauto.
    + intros e0 He0. injection He0 as <-. eauto.
  - split.
    + intros pre c e post Heq. exfalso.
      eapply clean_no_raise; eassumption.
    + intros e He. discriminate He.
Qed.

(** C6.  Execution is one fixed straight-line sequence.  In every run the
    statements executed are an initial segment of the script's fixed
    list, and the pipeline steps they belong to are an initial segment of
    load, split, standardize, split, fit the pool, construct and fit the
    dynamic-selection estimators, score and print.  A run that completes
    executes all of them, the first split on the loaded dataset and the
    second on the scaled training part of the first. *)
Theorem C6_fixed_straight_line_order (w : World) :
  initial (map name_of (history lib w)) statements
  /\ initial (steps (history lib w)) pipeline
  /\ match outcome lib w with
     | inl _ => (List.length (history lib w) < List.length statements)%nat
     | inr _ =>
         map name_of (history lib w) = statements
         /\ steps (history lib w) = pipeline
         /\ exists b Xtr0 Xte0 ytr0 yte sc Xs Xte r,
             firstn 6 (history lib w) =
               [ Returned load_breast_cancer (VBunch b);
                 Returned (train_test_split (data b) (target b)
                             [("test_size", LFloat 0.33)])
                          (VSplit (Xtr0, Xte0, ytr0, yte));
                 Returned StandardScaler (VScaler sc);
                 Returned (fit_transform sc Xtr0) (VArr Xs);
                 Returned (transform sc Xte0) (VArr Xte);
                 Returned (train_test_split Xs ytr0
                             [("test_size", LFloat 0.5)])
                          (VSplit r) ]
     end.
Proof.
  unfold outcome, history.
  destruct (run (notebook lib) w) as [r st] eqn:H.
  execute H.
  all: split; [reflexivity | split; [reflexivity | ]].
  all: try (cbn [List.length statements]; lia).
  split; [reflexivity | split; [reflexivity | ]].
  repeat eexists.
Qed.

End Control.

(** ** What is scored and printed *)

Section Reporting.
Context {O : Objects}.
Variable lib : Library O.

(** C2.  In every run the receivers of the [score] calls are, in order,
    the objects bound to [ola], [apriori], [knorau], [kne], [desp] and
    [apriori] again.  In a run that completes, everything that happens
    from [meta.fit] on is those six calls, each followed by the print of
    its result: the line labelled META-DES prints what
    [apriori.score(X_test, y_test)] returned, the same call as for the
    line labelled A priori, and the variable [meta] is not used again
    after [meta.fit]. *)
Theorem C2_meta_des_line_scores_apriori (w : World) :
  initial (map (fun s => Some (fst (fst s))) (scores (history lib w)))
          (map (constructed (history lib w)) score_receivers)
  /\ (outcome lib w = inr tt ->
      exists ol ap ku ke dp me Xds yds Xte yte r s1 s2 s3 s4 s5 s6,
        constructed (history lib w) OLA = Some ol
        /\ constructed (history lib w) APriori = Some ap
        /\ constructed (history lib w) KNORAU = Some ku
        /\ constructed (history lib w) KNORAE = Some ke
        /\ constructed (history lib w) DESP = Some dp
        /\ constructed (history lib w) METADES = Some me
        /\ skipn 23 (history lib w) =
             [ Returned (ds_fit me Xds yds) (VDS r);
               Returned (ds_score ol Xte yte) (VScore s1);
               Printed "Classification accuracy OLA: " s1;
               Returned (ds_score ap Xte yte) (VScore s2);
               Printed "Classification accuracy A priori: " s2;
               Returned (ds_score ku Xte yte) (VScore s3);
               Printed "Classification accuracy KNORA-Union: " s3;
               Returned (ds_score ke Xte yte) (VScore s4);
               Printed "Classification accuracy KNORA-Eliminate: " s4;
               Returned (ds_score dp Xte yte) (VScore s5);
               Printed "Classification accuracy DESP: " s5;
               Returned (ds_score ap Xte yte) (VScore s6);
               Printed "Classification accuracy META-DES: " s6 ]
        /\ exists w0 w1, lib (ds_score ap Xte yte) w0 = (inr s6, w1)).
Proof.
  split.
  - unfold history.
    destruct (run (notebook lib) w) as [r st] eqn:H.
    execute H; reflexivity.
  - intros Ho. completed lib w Ho. rewrite Hs.
    exists ol, ap, ku, ke, dp, me, Xds, yds, Xte, yte, r7,
      s1, s2, s3, s4, s5, s6.
    repeat (split; [reflexivity | ]). exists w3, w4. exact Hscore.
Qed.

(** C8.  The script passes its arrays on untouched.  In every run, each
    [score] call receives the one array that [scalar.transform] returned
    as its test matrix and the test labels of the first split as its
    label vector; a run that completes makes six such calls. *)
Theorem C8_score_calls_share_test_set (w : World) :
  Forall (fun s => transformed (history lib w) = [snd (fst s)]
                   /\ test_labels (history lib w) = [snd s])
         (scores (history lib w))
  /\ match outcome lib w with
     | inr _ => List.length (scores (history lib w)) = 6%nat
     | inl _ => (List.length (scores (history lib w)) <= 6)%nat
     end.
Proof.
  unfold outcome, history.
  destruct (run (notebook lib) w) as [r st] eqn:H.
  execute H.
  all: split;
    [ cbn; repeat (apply Forall_cons; [split; reflexivity | ]);
      apply Forall_nil
    | cbn; lia ].
Qed.

End Reporting.

(** ** The pool, the selection set and the constants *)

Section Pipeline.
Context {O : Objects}.
Variable lib : Library O.

(** C5.  In a run that completes, the pool is a [BaggingClassifier] built
    on a [CalibratedClassifierCV] built on a [Perceptron]; the only [fit]
    on a classifier is the pool's, on the training part that the second
    split returned; and this pool is what every dynamic-selection
    constructor receives. *)
Theorem C5_pool_is_bagged_calibrated_perceptrons (w : World) :
  outcome lib w = inr tt ->
  exists Xs ys Xtr Xds ytr yds pc m pool r kw1 kw2,
    firstn 5 (skipn 5 (history lib w)) =
      [ Returned (train_test_split Xs ys [("test_size", LFloat 0.5)])
                 (VSplit (Xtr, Xds, ytr, yds));
        Returned (Perceptron kw1) (VClf pc);
        Returned (CalibratedClassifierCV pc) (VClf m);
        Returned (BaggingClassifier m kw2) (VClf pool);
        Returned (clf_fit pool Xtr ytr) (VClf r) ]
    /\ clf_fits (history lib w) = [(pool, Xtr, ytr)]
    /\ List.length (splits (history lib w)) = 2%nat
    /\ Forall (fun c => snd (fst c) = pool) (constructions (history lib w)).
Proof.
  intros Ho. completed lib w Ho. rewrite Hs.
  exists Xs, ytr0, Xtr, Xds, ytr, yds, pc, m, pool, r0.
  do 2 eexists.
  repeat (split; [reflexivity | ]).
  cbn. repeat (apply Forall_cons; [reflexivity | ]). apply Forall_nil.
Qed.

(** C10.  The keyword arguments the script writes are, in every run, an
    initial segment of [test_size=0.33], [test_size=0.5], [max_iter=10],
    [n_estimators=10].  In a run that completes they are all used: the
    first split, of the loaded dataset, holds out the part that becomes
    the test set with [test_size=0.33]; the second split, of the scaled
    training data, holds out the selection set with [test_size=0.5]; the
    pool is [BaggingClassifier(CalibratedClassifierCV(Perceptron(
    max_iter=10)), n_estimators=10)]. *)
Theorem C10_fixed_constants (w : World) :
  initial (constants (history lib w)) fixed_constants
  /\ (outcome lib w = inr tt ->
      constants (history lib w) = fixed_constants
      /\ exists b Xtr0 Xte0 ytr0 yte sc Xs Xte Xtr Xds ytr yds pc m pool,
          loaded (history lib w) = [b]
          /\ splits (history lib w) =
               [ (data b, target b, [("test_size", LFloat 0.33)],
                  (Xtr0, Xte0, ytr0, yte));
                 (Xs, ytr0, [("test_size", LFloat 0.5)],
                  (Xtr, Xds, ytr, yds)) ]
          /\ firstn 3 (skipn 2 (history lib w)) =
               [ Returned StandardScaler (VScaler sc);
                 Returned (fit_transform sc Xtr0) (VArr Xs);
                 Returned (transform sc Xte0) (VArr Xte) ]
          /\ firstn 3 (skipn 6 (history lib w)) =
               [ Returned (Perceptron [("max_iter", LInt 10)]) (VClf pc);
                 Returned (CalibratedClassifierCV pc) (VClf m);
                 Returned (BaggingClassifier m [("n_estimators", LInt 10)])
                          (VClf pool) ]
          /\ Forall (fun s => snd (fst s) = Xte /\ snd s = yte)
                    (scores (history lib w))
          /\ Forall (fun s => snd (fst s) = Xds /\ snd s = yds)
                    (ds_fits (history lib w))).
Proof.
  split.
  - unfold history.
    destruct (run (notebook lib) w) as [r st] eqn:H.
    execute H; reflexivity.
  - intros Ho. completed lib w Ho. rewrite Hs.
    split; [reflexivity | ].
    exists b, Xtr0, Xte0, ytr0, yte, sc, Xs, Xte, Xtr, Xds, ytr, yds,
      pc, m, pool.
    repeat (split; [reflexivity | ]).
    split; cbn; repeat (apply Forall_cons; [split; reflexivity | ]);
      apply Forall_nil.
Qed.

Variable Sample : Type.
Variable samples : Arr -> list Sample.

(** C3.  In a run that completes, the seven dynamic-selection estimators
    are constructed from one pool object, the one the bagging [fit] was
    called on, and each is fitted on the same selection set, the held-out
    part of the second split.  The pool is fitted on the other part of that
    same split, which the library returned for the scaled training data;
    so wherever the library's splits are disjoint, the selection set and
    the pool's training subset are. *)
Theorem C3_same_pool_same_selection_set (w : World) :
  outcome lib w = inr tt ->
  exists pool sc X0 Xs ys kw Xtr Xds ytr yds ku ke dp ol mc ap me,
    constructions (history lib w) =
      [ (KNORAU, pool, ku); (KNORAE, pool, ke); (DESP, pool, dp);
        (OLA, pool, ol); (MCB, pool, mc); (APriori, pool, ap);
        (METADES, pool, me) ]
    /\ ds_fits (history lib w) =
         [ (ku, Xds, yds); (ke, Xds, yds); (dp, Xds, yds); (ol, Xds, yds);
           (mc, Xds, yds); (ap, Xds, yds); (me, Xds, yds) ]
    /\ clf_fits (history lib w) = [(pool, Xtr, ytr)]
    /\ skipn 1 (splits (history lib w)) = [(Xs, ys, kw, (Xtr, Xds, ytr, yds))]
    /\ In (Returned (fit_transform sc X0) (VArr Xs)) (history lib w)
    /\ (exists w1 w2,
          lib (train_test_split Xs ys kw) w1 = (inr (Xtr, Xds, ytr, yds), w2))
    /\ (split_is_disjoint lib samples ->
        disjoint samples Xtr Xds /\ disjoint samples ytr yds).
Proof.
  intros Ho. completed lib w Ho. rewrite Hs.
  exists pool, sc, Xtr0, Xs, ytr0, [("test_size", LFloat 0.5)],
    Xtr, Xds, ytr, yds, ku, ke, dp, ol, mc, ap, me.
  repeat (split; [reflexivity | ]).
  split; [cbn; tauto | ].
  split; [exists w1, w2; exact Hsplit | ].
  intros Hd. eapply Hd. exact Hsplit.
Qed.

End Pipeline.

(** ** The test data and what is fitted *)

(** Replays on the perturbed library the call just made on the original. *)
Ltac follow l H :=
  repeat rewrite bind_assoc in H;
  rewrite bind_call in H; tidy H; cbn [perturb_test] in H;
  try change (test_size_is 0.33 [("test_size", LFloat 0.33)]) with true in H;
  try change (test_size_is 0.33 [("test_size", LFloat 0.5)]) with false in H;
  tidy H;
  match goal with
  | E : l _ _ = (_, _) |- _ => rewrite E in H
  end;
  tidy H.

(** Brings the next call to the front. *)
Ltac settle H :=
  repeat rewrite bind_assoc in H;
  repeat (rewrite bind_ret in H; tidy H; repeat rewrite bind_assoc in H).

Ltac both l H1 H2 :=
  settle H1; settle H2; step H1; [discriminate H1 | ]; follow l H2.

Section Leakage.
Context {O : Objects}.
Variable lib : Library O.

(** The record of the cells up to the fitting, when they complete. *)
Lemma fitting_history (w : World) d p t st :
  run (fitting lib) w = (inr (d, p, t), st) ->
  exists b Xtr0 Xte0 ytr0 Xs,
    firstn 6 (trace st) =
      [ Returned load_breast_cancer (VBunch b);
        Returned (train_test_split (data b) (target b)
                    [("test_size", LFloat 0.33)])
                 (VSplit (Xtr0, Xte0, ytr0, y_test d));
        Returned StandardScaler (VScaler (scalar d));
        Returned (fit_transform (scalar d) Xtr0) (VArr Xs);
        Returned (transform (scalar d) Xte0) (VArr (X_test d));
        Returned (train_test_split Xs ytr0 [("test_size", LFloat 0.5)])
                 (VSplit (X_train d, X_dsel d, y_train d, y_dsel d)) ]
    /\ fits (trace st) =
         [ fit_transform (scalar d) Xtr0;
           clf_fit (pool_classifiers p) (X_train d) (y_train d);
           ds_fit (knorau t) (X_dsel d) (y_dsel d);
           ds_fit (kne t) (X_dsel d) (y_dsel d);
           ds_fit (desp t) (X_dsel d) (y_dsel d);
           ds_fit (ola t) (X_dsel d) (y_dsel d);
           ds_fit (mcb t) (X_dsel d) (y_dsel d);
           ds_fit (apriori t) (X_dsel d) (y_dsel d);
           ds_fit (meta t) (X_dsel d) (y_dsel d) ].
Proof.
  intros H1.
  unfold run, fitting, cell_data, cell_pool, cell_init, cell_fit in H1.
  repeat (settle H1; step H1; [discriminate H1 | ]).
  settle H1. unfold ret_ in H1. injection H1 as <- <- <- <-.
  do 5 eexists. split; reflexivity.
Qed.

(** The same cells on a library that hands back another test matrix, run
    side by side with the original: only [transform] sees the change. *)
Lemma fitting_lockstep (f : Arr -> Arr) (w : World) d p t st d' p' t' st' :
  read_only_transform lib ->
  run (fitting lib) w = (inr (d, p, t), st) ->
  run (fitting (perturb_test lib f)) w = (inr (d', p', t'), st') ->
  exists Xte0,
    firstn 1 (skipn 4 (trace st)) =
      [ Returned (transform (scalar d) Xte0) (VArr (X_test d)) ]
    /\ firstn 1 (skipn 4 (trace st')) =
         [ Returned (transform (scalar d) (f Xte0)) (VArr (X_test d')) ]
    /\ world st' = world st
    /\ scalar d' = scalar d /\ p' = p /\ t' = t
    /\ X_train d' = X_train d /\ y_train d' = y_train d
    /\ X_dsel d' = X_dsel d /\ y_dsel d' = y_dsel d
    /\ y_test d' = y_test d
    /\ fits (trace st') = fits (trace st).
Proof.
  intros Hro H1 H2.
  unfold run, fitting, cell_data, cell_pool, cell_init, cell_fit in H1, H2.
  do 4 both lib H1 H2.
  (* scalar.transform: the only call that sees the test matrix *)
  settle H1. settle H2. step H1; [discriminate H1 | ].
  rewrite bind_call in H2. tidy H2.
  cbn [perturb_test] in H2.
  match goal with
  | E : lib (transform ?s ?a) ?w0 = (_, ?w1) |- _ =>
      pose proof (Hro s a w0) as R1; rewrite E in R1; cbn in R1; subst w1;
      pose proof (Hro s (f a) w0) as R2;
      destruct (lib (transform s (f a)) w0) as [[e' | Xte'] w'] eqn:E';
      [ discriminate H2 | cbn in R2; subst w'; tidy H2 ]
  end.
  do 19 both lib H1 H2.
  settle H1. settle H2. unfold ret_ in H1, H2.
  injection H1 as <- <- <- <-. injection H2 as <- <- <- <-.
  eexists. repeat (split; [reflexivity | ]). reflexivity.
Qed.

(** C9.  The scaler is fitted once, by [fit_transform] on the training
    part of the first split, before the second split, whose input is the
    scaled output: the pool's training subset and the selection set are
    parts of one scaled array.  The test matrix is an argument of
    [transform] and of nothing that fits.  Where [transform] only reads,
    replacing the test matrix by any other leaves the world after all
    fitting (every fitted parameter), every object and every argument of
    every fitting call unchanged. *)
Theorem C9_test_data_never_reaches_a_fit (w : World) d p t st :
  run (fitting lib) w = (inr (d, p, t), st) ->
  exists b Xtr0 Xte0 ytr0 Xs,
    firstn 6 (trace st) =
      [ Returned load_breast_cancer (VBunch b);
        Returned (train_test_split (data b) (target b)
                    [("test_size", LFloat 0.33)])
                 (VSplit (Xtr0, Xte0, ytr0, y_test d));
        Returned StandardScaler (VScaler (scalar d));
        Returned (fit_transform (scalar d) Xtr0) (VArr Xs);
        Returned (transform (scalar d) Xte0) (VArr (X_test d));
        Returned (train_test_split Xs ytr0 [("test_size", LFloat 0.5)])
                 (VSplit (X_train d, X_dsel d, y_train d, y_dsel d)) ]
    /\ fits (trace st) =
         [ fit_transform (scalar d) Xtr0;
           clf_fit (pool_classifiers p) (X_train d) (y_train d);
           ds_fit (knorau t) (X_dsel d) (y_dsel d);
           ds_fit (kne t) (X_dsel d) (y_dsel d);
           ds_fit (desp t) (X_dsel d) (y_dsel d);
           ds_fit (ola t) (X_dsel d) (y_dsel d);
           ds_fit (mcb t) (X_dsel d) (y_dsel d);
           ds_fit (apriori t) (X_dsel d) (y_dsel d);
           ds_fit (meta t) (X_dsel d) (y_dsel d) ]
    /\ (read_only_transform lib ->
        forall (f : Arr -> Arr) d' p' t' st',
          run (fitting (perturb_test lib f)) w = (inr (d', p', t'), st') ->
          firstn 1 (skipn 4 (trace st')) =
            [ Returned (transform (scalar d) (f Xte0)) (VArr (X_test d')) ]
          /\ world st' = world st
          /\ scalar d' = scalar d /\ p' = p /\ t' = t
          /\ X_train d' = X_train d /\ y_train d' = y_train d
          /\ X_dsel d' = X_dsel d /\ y_dsel d' = y_dsel d
          /\ y_test d' = y_test d
          /\ fits (trace st') = fits (trace st)).
Proof.
  intros H1.
  destruct (fitting_history w d p t st H1)
    as (b & Xtr0 & Xte0 & ytr0 & Xs & Hh & Hf).
  exists b, Xtr0, Xte0, ytr0, Xs.
  split; [exact Hh | split; [exact Hf | ]].
  intros Hro f d' p' t' st' H2.
  destruct (fitting_lockstep f w d p t st d' p' t' st' Hro H1 H2)
    as (a & Hh' & Ht & Hrest).
  assert (Hx : firstn 1 (skipn 4 (trace st))
               = firstn 1 (skipn 4 (firstn 6 (trace st)))).
  { rewrite !firstn_skipn_comm, firstn_firstn. reflexivity. }
  rewrite Hx, Hh in Hh'. cbn [firstn skipn] in Hh'.
  injection Hh' as Ha. subst a.
  split; [exact Ht | exact Hrest].
Qed.

End Leakage.

(** ** Runs on the model library *)

Section OnSim.

Lemma sim_completes : outcome Sim.lib (Sim.start 0) = inr tt.
Proof. vm_compute. reflexivity. Qed.

Lemma sim_split_is_disjoint : split_is_disjoint Sim.lib Sim.samples.
Proof.
  intros X y kw w Xa Xb ya yb w' H. cbn in H.
  injection H as <- <- <- <- _.
  assert (D : forall a : list Sim.Row,
             disjoint (O := Sim.objects) Sim.samples
               (Sim.part false (Sim.rng w) a) (Sim.part true (Sim.rng w) a)).
  { intros a s Ha Hb. unfold Sim.samples, Sim.part in Ha, Hb.
    apply in_map_iff in Ha as (r & <- & Hr).
    apply in_map_iff in Hb as (r' & Heq & Hr').
    apply filter_In in Hr as [_ Hr]. apply filter_In in Hr' as [_ Hr'].
    apply Bool.eqb_prop in Hr, Hr'. rewrite Heq in Hr'. congruence. }
  split; apply D.
Qed.

Lemma sim_transform_reads_only : read_only_transform Sim.lib.
Proof.
  intros s X w. cbn.
  destruct (Sim.lookup s (Sim.params w)); reflexivity.
Qed.

(** C1.  On the model library, from generator state 0, the run
    completes and fits all seven estimators, but scores five of them: the
    objects bound to [mcb] and [meta] receive no [score] call, no line
    reports MCB, and the line labelled META-DES prints 208, the score of
    the A Priori estimator, while [meta.score(X_test, y_test)] is 708. *)
Theorem C1_meta_des_line_is_not_meta_score :
  outcome Sim.lib (Sim.start 0) = inr tt
  /\ (map (fun s => fst (fst s)) (ds_fits (history Sim.lib (Sim.start 0)))
        : list (Technique * Z)) =
       [ (KNORAU, 4); (KNORAE, 5); (DESP, 6); (OLA, 7); (MCB, 8);
         (APriori, 9); (METADES, 10) ]%Z
  /\ (scores (history Sim.lib (Sim.start 0))
        : list (Technique * Z * list Sim.Row * list Sim.Row)) =
       map (fun d => (d, [(1, -4); (3, 0); (5, 4); (7, 9)]%Z,
                         [(1, 1); (3, 1); (5, 0); (7, 0)]%Z))
           [ (OLA, 7); (APriori, 9); (KNORAU, 4); (KNORAE, 5); (DESP, 6);
             (APriori, 9) ]%Z
  /\ (stdout (history Sim.lib (Sim.start 0)) : list (string * Z)) =
       [ ("Classification accuracy OLA: ", 108);
         ("Classification accuracy A priori: ", 208);
         ("Classification accuracy KNORA-Union: ", 508);
         ("Classification accuracy KNORA-Eliminate: ", 608);
         ("Classification accuracy DESP: ", 408);
         ("Classification accuracy META-DES: ", 208) ]%Z
  /\ fst (Sim.lib (@ds_score Sim.objects (METADES, 10%Z)
                            [(1, -4); (3, 0); (5, 4); (7, 9)]%Z
                            [(1, 1); (3, 1); (5, 0); (7, 0)]%Z)
                  (world (snd (run (notebook Sim.lib) (Sim.start 0)))))
     = inr 708%Z.
Proof. vm_compute. repeat split. Qed.

End OnSim.

(** C4.  No call of the script is given a [random_state], in any run on any
    library: the only keywords the script writes are [test_size],
    [max_iter] and [n_estimators].  And the printed accuracies are not a
    function of the dataset: on the model library, whose splits and bagging
    draw from the world's generator, the runs from generator states 0 and 1
    load the same dataset, both complete, and print different values. *)
Theorem C4_unseeded_runs_differ :
  (forall (O : Objects) (lib : Library O) (w : World),
      ~ In "random_state" (keywords (history lib w))
      /\ incl (keywords (history lib w))
              ["test_size"; "max_iter"; "n_estimators"])
  /\ (loaded (history Sim.lib (Sim.start 0))
        = loaded (history Sim.lib (Sim.start 1))
      /\ outcome Sim.lib (Sim.start 0) = inr tt
      /\ outcome Sim.lib (Sim.start 1) = inr tt
      /\ stdout (history Sim.lib (Sim.start 0))
           <> stdout (history Sim.lib (Sim.start 1))).
Proof.
  split.
  - intros O lib w. unfold history.
    destruct (run (notebook lib) w) as [r st] eqn:H.
    execute H.
    all: cbn [keywords invoked flat_map app kwargs_of map fst]; split;
      [ cbn [In]; intuition discriminate
      | intros k Hk; cbn [In] in Hk |- *; intuition auto ].
  - repeat split; try (vm_compute; reflexivity).
    intros H. vm_compute in H. discriminate H.
Qed.

(** ** The conditional statements hold on a concrete run *)

Lemma C5_witness :
  outcome Sim.lib (Sim.start 0) = inr tt
  /\ exists Xs ys Xtr Xds ytr yds pc m pool r kw1 kw2,
      firstn 5 (skipn 5 (history Sim.lib (Sim.start 0))) =
        [ Returned (train_test_split Xs ys [("test_size", LFloat 0.5)])
                   (VSplit (Xtr, Xds, ytr, yds));
          Returned (Perceptron kw1) (VClf pc);
          Returned (CalibratedClassifierCV pc) (VClf m);
          Returned (BaggingClassifier m kw2) (VClf pool);
          Returned (clf_fit pool Xtr ytr) (VClf r) ]
      /\ clf_fits (history Sim.lib (Sim.start 0)) = [(pool, Xtr, ytr)]
      /\ List.length (splits (history Sim.lib (Sim.start 0))) = 2%nat
      /\ Forall (fun c => snd (fst c) = pool)
                (constructions (history Sim.lib (Sim.start 0))).
Proof.
  split.
  - vm_compute. reflexivity.
  - apply (C5_pool_is_bagged_calibrated_perceptrons Sim.lib (Sim.start 0)).
    vm_compute. reflexivity.
Defined.

Lemma C3_witness :
  split_is_disjoint Sim.lib Sim.samples
  /\ outcome Sim.lib (Sim.start 0) = inr tt
  /\ exists pool sc X0 Xs ys kw Xtr Xds ytr yds ku ke dp ol mc ap me,
      constructions (history Sim.lib (Sim.start 0)) =
        [ (KNORAU, pool, ku); (KNORAE, pool, ke); (DESP, pool, dp);
          (OLA, pool, ol); (MCB, pool, mc); (APriori, pool, ap);
          (METADES, pool, me) ]
      /\ ds_fits (history Sim.lib (Sim.start 0)) =
           [ (ku, Xds, yds); (ke, Xds, yds); (dp, Xds, yds); (ol, Xds, yds);
             (mc, Xds, yds); (ap, Xds, yds); (me, Xds, yds) ]
      /\ clf_fits (history Sim.lib (Sim.start 0)) = [(pool, Xtr, ytr)]
      /\ skipn 1 (splits (history Sim.lib (Sim.start 0)))
           = [(Xs, ys, kw, (Xtr, Xds, ytr, yds))]
      /\ In (Returned (fit_transform sc X0) (VArr Xs))
            (history Sim.lib (Sim.start 0))
      /\ (exists w1 w2,
            Sim.lib (train_test_split Xs ys kw) w1
            = (inr (Xtr, Xds, ytr, yds), w2))
      /\ (split_is_disjoint Sim.lib Sim.samples ->
          disjoint Sim.samples Xtr Xds /\ disjoint Sim.samples ytr yds).
Proof.
  split; [exact sim_split_is_disjoint | split].
  - vm_compute. reflexivity.
  - apply (C3_same_pool_same_selection_set Sim.lib Z Sim.samples
             (Sim.start 0)).
    vm_compute. reflexivity.
Defined.

Lemma C9_witness :
  exists d p t st d' p' t' st',
    read_only_transform Sim.lib
    /\ run (fitting Sim.lib) (Sim.start 0) = (inr (d, p, t), st)
    /\ run (fitting (perturb_test Sim.lib Sim.doubled)) (Sim.start 0)
         = (inr (d', p', t'), st')
    /\ X_test d' <> X_test d
    /\ (world st' = world st /\ scalar d' = scalar d /\ p' = p /\ t' = t
        /\ X_train d' = X_train d /\ y_train d' = y_train d
        /\ X_dsel d' = X_dsel d /\ y_dsel d' = y_dsel d
        /\ y_test d' = y_test d
        /\ fits (trace st') = fits (trace st)).
Proof.
  destruct (run (fitting Sim.lib) (Sim.start 0))
    as [[e | [[d p] t]] st] eqn:H1.
  { vm_compute in H1. discriminate H1. }
  destruct (run (fitting (perturb_test Sim.lib Sim.doubled)) (Sim.start 0))
    as [[e | [[d' p'] t']] st'] eqn:H2.
  { vm_compute in H2. discriminate H2. }
  exists d, p, t, st, d', p', t', st'.
  split; [exact sim_transform_reads_only | ].
  split; [reflexivity | ].
  split; [reflexivity | ].
  split.
  - vm_compute in H1. vm_compute in H2.
    injection H1 as <- <- <- <-. injection H2 as <- <- <- <-.
    intros H. vm_compute in H. discriminate H.
  - destruct (C9_test_data_never_reaches_a_fit Sim.lib (Sim.start 0)
                d p t st H1)
      as (b & Xtr0 & Xte0 & ytr0 & Xs & _ & _ & G).
    destruct (G sim_transform_reads_only Sim.doubled d' p' t' st' H2)
      as (_ & G').
    exact G'.
Defined.

(** * Further properties of the script *)

Ltac find_event := repeat (first [left; reflexivity | right]).

Section Further.
Context {O : Objects}.
Variable lib : Library O.

(** X1.  In every run each object is ready when it is used: the scaler is
    constructed before [fit_transform] and fitted before [transform]; the
    calibrated classifier wraps a constructed perceptron and the bagging
    classifier the calibrated one; the pool's [fit] has returned before any
    dynamic-selection constructor receives the pool; and every estimator is
    constructed before its [fit] and fitted before its [score]. *)
Theorem X1_objects_ready_before_use (w : World) :
  respects prepared [] (history lib w).
Proof.
  unfold history.
  destruct (run (notebook lib) w) as [r st] eqn:H.
  execute H.
  all: cbn [respects prepared app]; repeat split;
    repeat eexists; cbn [In]; find_event.
Qed.


(** X3.  In every run, also one cut short by an exception, the printed
    values are exactly the scores the library returned, in order, one line
    per returned score, and the labels are an initial segment of the six
    labels of the score cell. *)
Theorem X3_one_line_per_returned_score (w : World) :
  map snd (stdout (history lib w)) = returned_scores (history lib w)
  /\ initial (map fst (stdout (history lib w))) labels.
Proof.
  unfold history.
  destruct (run (notebook lib) w) as [r st] eqn:H.
  execute H; split; reflexivity.
Qed.


(** X5.  Where [score] only reads, the lines labelled A priori and META-DES
    of a completed run print the same value: they are the same call, made
    in the same world. *)
Theorem X5_duplicate_lines_agree (w : World) :
  read_only_score lib ->
  outcome lib w = inr tt ->
  exists s,
    nth_error (stdout (history lib w)) 1
      = Some ("Classification accuracy A priori: ", s)
    /\ nth_error (stdout (history lib w)) 5
      = Some ("Classification accuracy META-DES: ", s).
Proof.
  intros Hro. unfold outcome, history.
  destruct (run (notebook lib) w) as [r st] eqn:H.
  execute H; intros Hr; try discriminate Hr.
  repeat match goal with
         | E : lib (ds_score ?d ?X ?y) ?w0 = (_, ?w1) |- _ =>
             tryif constr_eq w0 w1 then fail else
               (let R := fresh "R" in
                pose proof (Hro d X y w0) as R; rewrite E in R;
                cbn in R; subst w1)
         end.
  match goal with
  | E1 : lib (ds_score ?d ?X ?y) ?w0 = (inr ?s, _),
    E2 : lib (ds_score ?d ?X ?y) ?w0 = (inr ?s', _) |- _ =>
      tryif constr_eq s s' then fail else
        (rewrite E1 in E2; injection E2 as <-)
  end.
  eexists. split; reflexivity.
Qed.

(** Where [score] only reads, the score cell leaves the world as it found
    it, whether it completes or stops at a raise. *)
Lemma cell_score_world d t st :
  read_only_score lib -> world (snd (cell_score lib d t st)) = world st.
Proof.
  intros Hro. unfold cell_score, bind, call, print, log. cbn [world].
  repeat match goal with
         | |- context [lib (ds_score ?d ?X ?y) ?w0] =>
             let R := fresh "R" in
             pose proof (Hro d X y w0) as R;
             destruct (lib (ds_score d X y) w0) as [[? | ?] ?];
             cbn in R; subst; cbn [world snd]
         end.
  all: reflexivity.
Qed.

(** X6.  Where [score] only reads, scoring and printing change nothing the
    libraries hold: the world at the end of the notebook is the world at
    the end of the fitting cells, whether the run completes or not. *)
Theorem X6_scoring_leaves_fitted_state (w : World) :
  read_only_score lib ->
  world (snd (run (notebook lib) w)) = world (snd (run (fitting lib) w)).
Proof.
  intros Hro. unfold run, notebook. unfold bind at 1.
  destruct (fitting lib {| world := w; trace := [] |})
    as [[e | [[d p] t]] st]; cbn [snd].
  - reflexivity.
  - apply cell_score_world. exact Hro.
Qed.

End Further.

Lemma sim_score_reads_only : read_only_score Sim.lib.
Proof.
  intros d X y w. cbn.
  destruct (Sim.lookup (snd d) (Sim.params w)); reflexivity.
Qed.

Lemma X5_witness :
  read_only_score Sim.lib
  /\ outcome Sim.lib (Sim.start 0) = inr tt
  /\ exists s,
      nth_error (stdout (history Sim.lib (Sim.start 0))) 1
        = Some ("Classification accuracy A priori: ", s)
      /\ nth_error (stdout (history Sim.lib (Sim.start 0))) 5
        = Some ("Classification accuracy META-DES: ", s).
Proof.
  split; [exact sim_score_reads_only | split].
  - vm_compute. reflexivity.
  - apply (X5_duplicate_lines_agree Sim.lib (Sim.start 0)).
    + exact sim_score_reads_only.
    + vm_compute. reflexivity.
Defined.

Lemma X6_witness :
  read_only_score Sim.lib
  /\ world (snd (run (notebook Sim.lib) (Sim.start 0)))
     = world (snd (run (fitting Sim.lib) (Sim.start 0))).
Proof.
  split; [exact sim_score_reads_only | ].
  apply (X6_scoring_leaves_fitted_state Sim.lib (Sim.start 0)).
  exact sim_score_reads_only.
Defined.
